(** * A shallow embedding of the instruments of milabench

    Source: [milabench/instruments.py].  Every definition below embeds one
    function (or one stage of a stream pipeline) of that module.  Python
    integers are [Z]; Python floats produced by divisions are modelled by
    exact rationals [Q] (the claims are about which quantities are divided,
    not about rounding); dictionaries of given values are association lists
    keyed by [string]. *)

From Stdlib Require Import ZArith QArith List String Ascii Bool Lia.
From Stdlib Require Import Relations.Relation_Operators Relations.Operators_Properties.
Import ListNotations.
Open Scope Z_scope.

(** ** Generic stream stages *)

(** [pairwise()]: every adjacent pair of the stream, the first element
    alone producing nothing. *)
Fixpoint pairwise {A : Type} (l : list A) : list (A * A) :=
  match l with
  | x :: ((y :: _) as tl) => (x, y) :: pairwise tl
  | _ => []
  end.

(** Python's builtin [sum] over integers: a left fold from [0]. *)
Definition py_sum (l : list Z) : Z := fold_left Z.add l 0.

(** One billion: the nanoseconds per second used by every timing. *)
Definition ns_per_s : Z := 1000000000.

(** ** train_rate *)

(** The record kept by [.keep("time", "batch_size")]: the timestamp of
    [time.time_ns()] and [len(batch)]. *)
Record sample := mk_sample { time : Z; batch_size : Z }.

(** The subscriber of [times] (one flush of [buffer_with_time(1.0)]).
    [sync_cost] is [None] when [sync is None] and [Some (t1 - t0)], the
    measured duration of [torch.cuda.synchronize()], otherwise.  The result is
    [Some rate] when [ov.give(train_rate=rate, ...)] runs, [None] when the
    window publishes nothing. *)
Definition train_rate_flush (sync_cost : option Z)
    (elems : list (sample * sample)) : option Q :=
  let t0 := match sync_cost with Some c => c | None => 0 end in
  let t := t0 + py_sum (map (fun '(e1, e2) => time e2 - time e1) elems) in
  let n := py_sum (map (fun '(e1, _) => batch_size e1) elems) in
  let t_s := (inject_Z t / inject_Z ns_per_s)%Q in
  if negb (n =? 0) && negb (Qeq_bool t_s 0)
  then Some (inject_Z n / t_s)%Q
  else None.

(** The spec's reading of a window, written over the sample sequence
    whose consecutive pairs fill it: the sizes of the first element of each
    consecutive pair, and the time deltas of the consecutive pairs. *)
Fixpoint spec_size_sum (s : list sample) : Z :=
  match s with
  | x :: ((_ :: _) as tl) => batch_size x + spec_size_sum tl
  | _ => 0
  end.

Fixpoint spec_delta_sum (s : list sample) : Z :=
  match s with
  | x :: ((y :: _) as tl) => (time y - time x) + spec_delta_sum tl
  | _ => 0
  end.

(** The rate as the spec states it: [Σsize / Σdelta] in seconds, published
    only when both sums are non-zero. *)
Definition spec_train_rate (s : list sample) : option Q :=
  let n := spec_size_sum s in
  let d := spec_delta_sum s in
  if negb (n =? 0) && negb (d =? 0)
  then Some (inject_Z n / (inject_Z d / inject_Z ns_per_s))%Q
  else None.

(** The rate published for one window with synchronisation cost [c]:
    [Σsize / ((c + Σdelta) / 10^9)], published iff the size total and the
    elapsed total [c + Σdelta] are both non-zero. *)
Definition train_rate_expected (c : Z) (s : list sample) : option Q :=
  let n := spec_size_sum s in
  let t := c + spec_delta_sum s in
  if negb (n =? 0) && negb (t =? 0)
  then Some (inject_Z n / (inject_Z t / inject_Z ns_per_s))%Q
  else None.

(** ** stop *)

(** What the [stop] instrument does on one [train_rate] event: the
    [map_indexed(...).give()] subscriber gives a progress record, then
    [skip(stop) >> _stop] calls [_stop] once [stop] events have been
    skipped. *)
Inductive stop_effect :=
| Progress (progress total : Z)
| HostStop (value : Q).

(** The local state of the instrument: the ordinal of [map_indexed], the
    counter of [skip], and the [nonlocal called] flag of [_stop]. *)
Record stop_state := mk_stop_state
  { st_index : Z; st_skipped : Z; st_called : bool }.

Definition stop_init : stop_state := mk_stop_state 0 0 false.

(** [_stop(value)]: [ov.stop(value)] only when [called] is still false. *)
Definition stop_callback (st : stop_state) (v : Q) : stop_state * list stop_effect :=
  if negb (st_called st)
  then (mk_stop_state (st_index st) (st_skipped st) true, [HostStop v])
  else (st, []).

Definition stop_on_event (n : Z) (st : stop_state) (v : Q)
    : stop_state * list stop_effect :=
  let prog := Progress (st_index st) n in
  let st1 := mk_stop_state (st_index st + 1) (st_skipped st) (st_called st) in
  if st_skipped st <? n
  then (mk_stop_state (st_index st1) (st_skipped st1 + 1) (st_called st1), [prog])
  else let '(st2, eff) := stop_callback st1 v in (st2, prog :: eff).

(** The [train_rate] events in the order they are given.  A [train_rate]
    given again as a side effect of [ov.stop] is a later element of the
    list, so the list covers the re-entrant case of the source comment. *)
Fixpoint stop_run (n : Z) (st : stop_state) (evs : list Q) : list stop_effect :=
  match evs with
  | [] => []
  | v :: r => let '(st', eff) := stop_on_event n st v in eff ++ stop_run n st' r
  end.

(** [if stop:] guards the whole pipeline. *)
Definition stop_instrument (n : Z) (evs : list Q) : list stop_effect :=
  if negb (n =? 0) then stop_run n stop_init evs else [].

(** The values passed to [ov.stop]. *)
Fixpoint stop_signals (effs : list stop_effect) : list Q :=
  match effs with
  | [] => []
  | HostStop v :: r => v :: stop_signals r
  | Progress _ _ :: r => stop_signals r
  end.

(** ** GPUMonitor *)

(** One poll: [GPUtil.getGPUs()] returns data or raises. *)
Inductive gpu_poll (D : Type) :=
| PollOk (d : D)
| PollRaises (e : string).
Arguments PollOk {D} d.
Arguments PollRaises {D} e.

(** How [run] ends: the [while] condition becomes false, an exception
    escapes the loop (which ends the thread), or the modelled iterations
    are exhausted with the thread still looping. *)
Inductive run_outcome :=
| LoopExited
| ThreadDied (e : string)
| StillRunning.

(** [GPUMonitor.run]: each iteration reads [self.stopped] (the boolean of
    the pair), then calls [GPUtil.getGPUs()] and gives [gpudata]; there is no
    [try] around the call. *)
Fixpoint monitor_run {D : Type} (its : list (bool * gpu_poll D))
    : list D * run_outcome :=
  match its with
  | [] => ([], StillRunning)
  | (stopped, p) :: r =>
      if stopped then ([], LoopExited)
      else match p with
           | PollOk d => let '(pubs, o) := monitor_run r in (d :: pubs, o)
           | PollRaises e => ([], ThreadDied e)
           end
  end.

(** The monitor thread and the thread that runs [profile_gpu] interleaved.
    [stop()] is the single assignment [self.stopped = True]; the monitor
    thread is at one of the points of its [while] loop.  The counters record
    all publishes and the publishes made after [stop()] has returned. *)
Inductive mon_pc := AtCheck | AtGive | AtSleep | AtDone.

Record sys_state := mk_sys
  { pc : mon_pc; stopped : bool; stop_returned : bool;
    publishes : nat; late_publishes : nat }.

(** [monitor.start()]: the thread is about to test [self.stopped]. *)
Definition sys_init : sys_state := mk_sys AtCheck false false 0 0.

Inductive thread := MonitorThread | MainThread.

Definition sys_next (th : thread) (s : sys_state) : option sys_state :=
  match th with
  | MonitorThread =>
      match pc s with
      | AtCheck =>
          if stopped s then Some (mk_sys AtDone (stopped s) (stop_returned s)
                                    (publishes s) (late_publishes s))
          else Some (mk_sys AtGive (stopped s) (stop_returned s)
                       (publishes s) (late_publishes s))
      | AtGive =>
          Some (mk_sys AtSleep (stopped s) (stop_returned s) (S (publishes s))
                  (if stop_returned s then S (late_publishes s)
                   else late_publishes s))
      | AtSleep => Some (mk_sys AtCheck (stopped s) (stop_returned s)
                           (publishes s) (late_publishes s))
      | AtDone => None
      end
  | MainThread =>
      if stop_returned s then None
      else Some (mk_sys (pc s) true true (publishes s) (late_publishes s))
  end.

Definition sys_step (s s' : sys_state) : Prop :=
  exists th, sys_next th s = Some s'.

Definition sys_reachable : sys_state -> Prop :=
  clos_refl_trans sys_state sys_step sys_init.

(** [profile_gpu] builds [GPUMonitor(ov, 100)]: the delay handed to
    [time.sleep], whose argument is in seconds. *)
Definition profile_gpu_delay : Z := 100.

Definition sleep_ms (delay_s : Z) : Z := delay_s * 1000.

(** The times (in ms) of the publishes of [run] started at [t], the k-th
    call of [GPUtil.getGPUs()] taking [nth k acqs] ms, each give followed by
    [time.sleep(self.delay)]. *)
Fixpoint publish_times (t delay : Z) (acqs : list Z) : list Z :=
  match acqs with
  | [] => []
  | a :: r => (t + a) :: publish_times (t + a + sleep_ms delay) delay r
  end.

Definition gaps (l : list Z) : list Z := map (fun '(x, y) => y - x) (pairwise l).

(** ** profile *)

Inductive profiler_method := ProfileWithTorch | ProfileWithDeepspeed.

(** What the first resumption of [profile] does. *)
Inductive profile_outcome :=
| ProfileReturns
| ProfileRaises (msg : string)
| ProfileRuns (m : profiler_method).

(** The value of [ov.options.profile] when the flag is absent:
    [default=""] of [@parametrized].  [None] stands for Python's [None]. *)
Definition profile_option_default : option string := Some ""%string.

Definition profile_start (profile_name : option string) : profile_outcome :=
  match profile_name with
  | None => ProfileReturns
  | Some s =>
      if String.eqb s "torch" then ProfileRuns ProfileWithTorch
      else if String.eqb s "deepspeed" then ProfileRuns ProfileWithDeepspeed
      else ProfileRaises ("Unknown profiler: " ++ s)%string
  end.

(** Whether a profiler collaborator is invoked. *)
Definition profiler_invoked (o : profile_outcome) : bool :=
  match o with ProfileRuns _ => true | _ => false end.

(** ** verify *)

(** Python's [<] on floats. *)
Definition py_lt (x y : Q) : bool := negb (Qle_bool y x).

(** The two loss predicates sent by [verify] once the [loss] channel is
    complete: [(first_loss | last_loss).pairwise().starmap(ll < fl)] and
    [last_loss.map(x < 1)], in subscription order. *)
Definition verify_loss_outputs (losses : list Q) : list (string * bool) :=
  match losses with
  | [] => []
  | fl :: _ =>
      let ll := last losses fl in
      map (fun '(a, b) => ("verify.loss_decreases"%string, py_lt b a))
          (pairwise [fl; ll])
      ++ [("verify.loss_below_threshold"%string, py_lt ll 1)]
  end.

(** ** loading_rate and compute_rate *)

(** The Python values a [batch] can be: a list, a tuple, an object with a
    [len] (a tensor, whose [len] is its first dimension) or an object
    without one. *)
#[local] Set Warnings "-register-all".
Inductive pyval :=
| PList (l : list pyval)
| PTuple (l : list pyval)
| PSized (n : Z)
| PNoLen.

Inductive py_exc := TypeError | IndexError | ZeroDivisionError.

Inductive py_result (A : Type) :=
| Ok (a : A)
| Raise (e : py_exc).
Arguments Ok {A} a.
Arguments Raise {A} e.

Definition py_len (v : pyval) : py_result Z :=
  match v with
  | PList l | PTuple l => Ok (Z.of_nat (List.length l))
  | PSized n => Ok n
  | PNoLen => Raise TypeError
  end.

(** [data[0]] on a sequence. *)
Definition py_index0 (l : list pyval) : py_result pyval :=
  match l with x :: _ => Ok x | [] => Raise IndexError end.

(** The values given at the exit of the probe ([results]). *)
Definition given_dict := list (string * pyval).

Fixpoint dict_get (k : string) (d : given_dict) : option pyval :=
  match d with
  | [] => None
  | (k', v) :: r => if String.eqb k k' then Some v else dict_get k r
  end.

(** [len(data) / seconds] with [seconds = (t1 - t0) / 1000000000]. *)
Definition rate_of (t0 t1 : Z) (data : pyval) : py_result (option Q) :=
  let seconds := (inject_Z (t1 - t0) / inject_Z ns_per_s)%Q in
  match py_len data with
  | Raise e => Raise e
  | Ok n =>
      if Qeq_bool seconds 0 then Raise ZeroDivisionError
      else Ok (Some (inject_Z n / seconds)%Q)
  end.

(** [_timing] of [loading_rate]: [isinstance(data, (list, tuple))]. *)
Definition loading_timing (t0 t1 : Z) (results : given_dict)
    : py_result (option Q) :=
  match dict_get "batch" results with
  | None => Ok None
  | Some data =>
      match data with
      | PList l | PTuple l =>
          match py_index0 l with
          | Raise e => Raise e
          | Ok d => rate_of t0 t1 d
          end
      | _ => rate_of t0 t1 data
      end
  end.

(** [_timing] of [compute_rate]: [isinstance(data, list)]. *)
Definition compute_timing (t0 t1 : Z) (results : given_dict)
    : py_result (option Q) :=
  match dict_get "batch" results with
  | None => Ok None
  | Some data =>
      match data with
      | PList l =>
          match py_index0 l with
          | Raise e => Raise e
          | Ok d => rate_of t0 t1 d
          end
      | _ => rate_of t0 t1 data
      end
  end.

(** A measured span: the two [time.time_ns()] readings and [results]. *)
Record span := mk_span { span_t0 : Z; span_t1 : Z; span_results : given_dict }.

(** The values reaching [.average(scan=5)] for spans whose timing returns.
    [loading_rate]: [prb.wmap(_timing).filter(lambda xs: xs is not None)]. *)
Definition loading_to_average (spans : list span) : list (option Q) :=
  filter (fun x => match x with Some _ => true | None => false end)
    (flat_map (fun sp => match loading_timing (span_t0 sp) (span_t1 sp)
                                 (span_results sp) with
                         | Ok x => [x] | Raise _ => [] end) spans).

(** [compute_rate]: [ov.given.wmap("compute_start", _timing)], no filter. *)
Definition compute_to_average (spans : list span) : list (option Q) :=
  flat_map (fun sp => match compute_timing (span_t0 sp) (span_t1 sp)
                              (span_results sp) with
                      | Ok x => [x] | Raise _ => [] end) spans.

(** The loader shapes told apart by the [ksubscribe] handler of
    [loading_rate]: whether [loader.__iter__] is a generator function, and
    what [iter(loader)] does (raise, or return an iterator whose type is
    printed as [type_repr] and may have a [next] attribute). *)
Inductive iter_outcome :=
| IterRaises (e : py_exc)
| IterType (type_repr : string) (has_next : bool).

Record loader := mk_loader
  { iter_is_generator_function : bool; iter_of_loader : iter_outcome }.

(** The probes [ov.probe(...)] installs; each feeds the published pipeline. *)
Inductive probe := ProbeIterYield | ProbeNextValue.

Record io_state := mk_io { stderr_lines : list string; probes : list probe }.

Definition cannot_instrument_msg (type_repr : string) : string :=
  ("Error: cannot instrument loader of type " ++ type_repr)%string.

(** The handler [_(loader)] of [loading_rate]. *)
Definition loading_rate_on_loader (l : loader) (st : io_state)
    : py_result io_state :=
  if iter_is_generator_function l
  then Ok (mk_io (stderr_lines st) (probes st ++ [ProbeIterYield]))
  else match iter_of_loader l with
       | IterRaises e => Raise e
       | IterType ty true => Ok (mk_io (stderr_lines st) (probes st ++ [ProbeNextValue]))
       | IterType ty false =>
           Ok (mk_io (stderr_lines st ++ [cannot_instrument_msg ty]) (probes st))
       end.

(** ** dash: the table of current values *)

(** The values given on the bus, as far as [update_with] looks at them. *)
Inductive dval :=
| DStr (s : string)
| DInt (z : Z)
| DNone
| DObj (repr : string).

(** Python truthiness ([if units:]). *)
Definition py_truthy (v : dval) : bool :=
  match v with
  | DStr s => negb (String.eqb s "")
  | DInt z => negb (z =? 0)
  | DNone => false
  | DObj _ => true
  end.

(** Decimal digits of a non-negative integer, most significant first. *)
Fixpoint dec_digits (fuel : nat) (n : Z) (acc : string) : string :=
  match fuel with
  | O => acc
  | S f =>
      let acc' := String (Ascii.ascii_of_nat (48 + Z.to_nat (n mod 10))) acc in
      if n <? 10 then acc' else dec_digits f (n / 10) acc'
  end.

(** [str(v)], as used by the f-string of a progress key. *)
Definition py_str (v : dval) : string :=
  match v with
  | DStr s => s
  | DInt z =>
      let fuel := S (Z.to_nat (Z.log2 (Z.abs z))) in
      if z <? 0 then ("-" ++ dec_digits fuel (- z) "")%string
      else dec_digits fuel z ""
  | DNone => "None"
  | DObj r => r
  end.

(** The format string of a [Plain]: ["{}"] or [f"{{}} {units}"]. *)
Inductive plain_fmt := FmtDefault | FmtUnits (units : dval).

(** A row object: a rich [ProgressBar] (its [total], [completed], and an
    [_object] attribute if one was ever assigned) or a [Plain]. *)
Inductive row :=
| RowProgress (total completed : dval) (obj : option dval)
| RowPlain (obj : dval) (fmt : plain_fmt).

(** [rows] (a dict, in insertion order) and the keys of the rows added to
    [table]; a table cell is the very object stored in [rows], so the table
    is represented by its keys and read through [rows]. *)
Record dash_state := mk_dash { rows : list (string * row); table : list string }.

Definition dash_empty : dash_state := mk_dash [] [].

Fixpoint row_get (k : string) (d : list (string * row)) : option row :=
  match d with
  | [] => None
  | (k', r) :: tl => if String.eqb k k' then Some r else row_get k tl
  end.

(** [rows[k] = r]: replaced in place when present, appended otherwise. *)
Fixpoint row_set (k : string) (r : row) (d : list (string * row))
    : list (string * row) :=
  match d with
  | [] => [(k, r)]
  | (k', r') :: tl =>
      if String.eqb k k' then (k', r) :: tl else (k', r') :: row_set k r tl
  end.

Definition values_dict := list (string * dval).

Fixpoint val_get (k : string) (d : values_dict) : option dval :=
  match d with
  | [] => None
  | (k', v) :: tl => if String.eqb k k' then Some v else val_get k tl
  end.

Definition has_key (k : string) (d : values_dict) : bool :=
  match val_get k d with Some _ => true | None => false end.

(** [f"\\[{k}]"]. *)
Definition progress_key (descr : dval) : string :=
  ("\[" ++ py_str descr ++ "]")%string.

(** [k.startswith("$") or k.startswith("#") or k == "units"]. *)
Definition reserved_key (k : string) : bool :=
  String.prefix "$" k || String.prefix "#" k || String.eqb k "units".

(** The progress branch of [update_with].  A new [ProgressBar] starts at
    rich's defaults ([total=100], [completed=0]); [update] on a [Plain]
    raises [AttributeError] ([None] here). *)
Definition update_progress (values : values_dict) (st : dash_state)
    : option dash_state :=
  match val_get "descr" values, val_get "total" values, val_get "progress" values with
  | Some d, Some tot, Some prog =>
      let k := progress_key d in
      let st1 :=
        match row_get k (rows st) with
        | Some _ => st
        | None => mk_dash (row_set k (RowProgress (DInt 100) (DInt 0) None) (rows st))
                          (table st ++ [k])
        end in
      match row_get k (rows st1) with
      | Some (RowProgress _ _ o) =>
          Some (mk_dash (row_set k (RowProgress tot prog o) (rows st1)) (table st1))
      | _ => None
      end
  | _, _, _ => None
  end.

(** One iteration of [for k, v in values.items()]. *)
Definition update_item (units : dval) (st : dash_state) (kv : string * dval)
    : dash_state :=
  let '(k, v) := kv in
  if reserved_key k then st
  else match row_get k (rows st) with
       | Some (RowPlain _ f) => mk_dash (row_set k (RowPlain v f) (rows st)) (table st)
       | Some (RowProgress t c _) =>
           mk_dash (row_set k (RowProgress t c (Some v)) (rows st)) (table st)
       | None =>
           let f := if py_truthy units then FmtUnits units else FmtDefault in
           mk_dash (row_set k (RowPlain v f) (rows st)) (table st ++ [k])
       end.

(** [update_with(values)]; [None] is the [AttributeError] of the progress
    branch. *)
Definition update_with (values : values_dict) (st : dash_state) : option dash_state :=
  if has_key "total" values && has_key "progress" values && has_key "descr" values
  then update_progress values st
  else let units := match val_get "units" values with Some u => u | None => DNone end in
       Some (fold_left (update_item units) values st).

(** The subscriber applied to the successive given dicts, the first
    exception ending the run. *)
Fixpoint dash_run (vs : list values_dict) (st : dash_state) : option dash_state :=
  match vs with
  | [] => Some st
  | v :: r => match update_with v st with
              | Some st' => dash_run r st'
              | None => None
              end
  end.

(** ** verify: presence of the rate fields *)

(** A given dict, by its keys. *)
Definition given_keys := list string.

(** [ov.given.getitem(field, strict=False).is_empty().map(lambda x: not x)]:
    the value sent as [verify.has_<field>] once the bus is complete. *)
Definition verify_has_field (field : string) (given : list given_keys) : bool :=
  negb (match filter (fun d => existsb (String.eqb field) d) given with
        | [] => true
        | _ :: _ => false
        end).

(** The dicts given by [train_rate]: [ov.give(train_rate=..., units=...)]
    for every flush that publishes, each flush with its own
    synchronisation cost. *)
Definition train_rate_gives (windows : list (option Z * list (sample * sample)))
    : list given_keys :=
  flat_map (fun '(c, elems) =>
              match train_rate_flush c elems with
              | Some _ => [["train_rate"; "units"]%string]
              | None => []
              end) windows.

(** ** The monitor thread running alone *)

(** [k] steps of the monitor thread, stopping once it has left its loop. *)
Fixpoint monitor_alone (k : nat) (s : sys_state) : sys_state :=
  match k with
  | O => s
  | S k' => match sys_next MonitorThread s with
            | Some s' => monitor_alone k' s'
            | None => s
            end
  end.

(** ** Shifting a window in time *)

Definition shift_sample (delta : Z) (x : sample) : sample :=
  mk_sample (time x + delta) (batch_size x).

(** The progress records given by [stop], as [(progress, total)]. *)
Fixpoint stop_progress (effs : list stop_effect) : list (Z * Z) :=
  match effs with
  | [] => []
  | Progress p t :: r => (p, t) :: stop_progress r
  | HostStop _ :: r => stop_progress r
  end.

(** ** Lemmas on the generic stages *)

Lemma fold_left_add_acc (l : list Z) (a : Z) :
  fold_left Z.add l a = a + fold_left Z.add l 0.
Proof.
  revert a; induction l as [|x l IH]; intros a; simpl; [lia|].
  rewrite (IH (a + x)), (IH x); lia.
Qed.

Lemma py_sum_cons (x : Z) (l : list Z) : py_sum (x :: l) = x + py_sum l.
Proof. unfold py_sum; simpl; apply fold_left_add_acc. Qed.

Lemma pairwise_size_sum (s : list sample) :
  py_sum (map (fun '(e1, _) => batch_size e1) (pairwise s)) = spec_size_sum s.
Proof.
  induction s as [|x [|y s'] IH]; [reflexivity|reflexivity|].
  change (pairwise (x :: y :: s')) with ((x, y) :: pairwise (y :: s')).
  cbn [map]; rewrite py_sum_cons, IH; reflexivity.
Qed.

Lemma pairwise_delta_sum (s : list sample) :
  py_sum (map (fun '(e1, e2) => time e2 - time e1) (pairwise s))
  = spec_delta_sum s.
Proof.
  induction s as [|x [|y s'] IH]; [reflexivity|reflexivity|].
  change (pairwise (x :: y :: s')) with ((x, y) :: pairwise (y :: s')).
  cbn [map]; rewrite py_sum_cons, IH; reflexivity.
Qed.

Lemma Qeq_bool_seconds_zero (t : Z) :
  Qeq_bool (inject_Z t / inject_Z ns_per_s)%Q 0 = (t =? 0).
Proof.
  destruct (Z.eqb_spec t 0) as [->|Ht].
  - reflexivity.
  - apply Bool.not_true_iff_false; intros H; apply Qeq_bool_eq in H.
    apply Ht. unfold Qeq, Qdiv, Qmult, Qinv, inject_Z, ns_per_s in H.
    simpl in H. lia.
Qed.

Lemma train_rate_flush_pairwise (c : option Z) (s : list sample) :
  train_rate_flush c (pairwise s)
  = train_rate_expected (match c with Some c => c | None => 0 end) s.
Proof.
  unfold train_rate_flush, train_rate_expected.
  rewrite pairwise_size_sum, pairwise_delta_sum, Qeq_bool_seconds_zero.
  reflexivity.
Qed.

(** ** Lemmas on the stop instrument *)

Lemma stop_signals_app (a b : list stop_effect) :
  stop_signals (a ++ b) = stop_signals a ++ stop_signals b.
Proof.
  induction a as [|[p t|v] a IH]; simpl; rewrite ?IH; reflexivity.
Qed.

Lemma stop_run_called (n : Z) (evs : list Q) :
  forall st, st_called st = true -> stop_signals (stop_run n st evs) = [].
Proof.
  induction evs as [|v r IH]; intros [i k c] Hc; simpl in *; [reflexivity|].
  subst c. unfold stop_on_event; simpl.
  destruct (k <? n); simpl; rewrite ?stop_signals_app; apply IH; reflexivity.
Qed.

Lemma stop_run_fresh (n : Z) (evs : list Q) :
  forall st, st_called st = false -> 0 <= st_skipped st <= n ->
  stop_signals (stop_run n st evs)
  = match nth_error evs (Z.to_nat (n - st_skipped st)) with
    | Some v => [v] | None => [] end.
Proof.
  induction evs as [|v r IH]; intros [i k c] Hc Hk; simpl in *.
  - destruct (Z.to_nat (n - k)); reflexivity.
  - subst c. unfold stop_on_event; simpl.
    destruct (Z.ltb_spec k n) as [Hlt|Hge]; simpl.
    + rewrite IH by (simpl; auto; lia); simpl.
      replace (Z.to_nat (n - k)) with (S (Z.to_nat (n - (k + 1)))) by lia.
      reflexivity.
    + replace (n - k) with 0 by lia; simpl.
      rewrite ?stop_signals_app, stop_run_called by reflexivity.
      reflexivity.
Qed.

(** ** Lemmas on the monitor interleavings *)

(** Before [stop()] returns nothing is late; after it, the flag is set, at
    most one publish has happened since, and a monitor thread about to give
    has not given late yet. *)
Definition sys_inv (s : sys_state) : Prop :=
  (stop_returned s = false -> stopped s = false /\ late_publishes s = 0%nat) /\
  (stop_returned s = true ->
     stopped s = true /\ (late_publishes s <= 1)%nat /\
     (pc s = AtGive -> late_publishes s = 0%nat)).

Lemma sys_inv_init : sys_inv sys_init.
Proof. split; simpl; intros; [split; reflexivity | discriminate]. Qed.

Lemma sys_inv_step (s s' : sys_state) :
  sys_inv s -> sys_step s s' -> sys_inv s'.
Proof.
  intros [Hf Ht] [th Hn].
  destruct s as [p sp sr pu lp]; simpl in *.
  destruct th; simpl in Hn.
  - destruct sr.
    + destruct (Ht eq_refl) as (-> & Hle & Hg).
      destruct p; inversion Hn; subst; clear Hn; split; simpl;
        intros; try discriminate; repeat split; try lia;
        try (specialize (Hg eq_refl); lia).
      all: intros; discriminate.
    + destruct (Hf eq_refl) as (-> & ->).
      destruct p; inversion Hn; subst; clear Hn; split; simpl;
        intros; try discriminate; split; reflexivity.
  - destruct sr; inversion Hn; subst; clear Hn.
    destruct (Hf eq_refl) as [_ ->].
    split; simpl; intros; [discriminate|]. repeat split; lia.
Qed.

Lemma sys_inv_reachable (s : sys_state) : sys_reachable s -> sys_inv s.
Proof.
  unfold sys_reachable. intros H.
  apply clos_rt_rt1n in H.
  assert (Hi : sys_inv sys_init) by apply sys_inv_init.
  revert Hi. induction H as [|x y z Hxy Hyz IH]; intros Hi; [exact Hi|].
  apply IH. eapply sys_inv_step; eassumption.
Qed.

(** ** Lemmas on the polling schedule *)

Lemma gaps_cons2 (x y : Z) (l : list Z) :
  gaps (x :: y :: l) = (y - x) :: gaps (y :: l).
Proof. reflexivity. Qed.

Lemma publish_times_gaps (d : Z) (acqs : list Z) :
  forall t, gaps (publish_times t d acqs) = map (fun a => sleep_ms d + a) (tl acqs).
Proof.
  induction acqs as [|a r IH]; intros t; [reflexivity|].
  destruct r as [|b r']; [reflexivity|].
  cbn [publish_times tl map].
  rewrite gaps_cons2.
  specialize (IH (t + a + sleep_ms d)); cbn [publish_times tl] in IH.
  rewrite IH. f_equal. lia.
Qed.

(** ** Lemmas on comparisons and rates *)

Lemma py_lt_spec (x y : Q) : py_lt x y = true <-> (x < y)%Q.
Proof.
  unfold py_lt; rewrite Bool.negb_true_iff, <- Bool.not_true_iff_false,
    Qle_bool_iff; split.
  - apply Qnot_le_lt.
  - apply Qlt_not_le.
Qed.

Lemma seconds_nonzero (t0 t1 : Z) :
  t0 <> t1 -> ~ (inject_Z (t1 - t0) / inject_Z ns_per_s == 0)%Q.
Proof.
  intros H Hq. apply Qeq_bool_iff in Hq.
  rewrite Qeq_bool_seconds_zero in Hq. apply Z.eqb_eq in Hq. lia.
Qed.

Lemma rate_of_sized (t0 t1 : Z) (v : pyval) (n : Z) :
  t0 <> t1 -> py_len v = Ok n ->
  rate_of t0 t1 v
  = Ok (Some (inject_Z n / (inject_Z (t1 - t0) / inject_Z ns_per_s))%Q).
Proof.
  intros Ht Hl. unfold rate_of. rewrite Hl.
  destruct (Qeq_bool _ 0) eqn:E; [|reflexivity].
  apply Qeq_bool_iff in E. exfalso; exact (seconds_nonzero t0 t1 Ht E).
Qed.

Lemma Qdiv_same_inj (a b : Z) (s : Q) :
  ~ (s == 0)%Q -> (inject_Z a / s == inject_Z b / s)%Q -> a = b.
Proof.
  intros Hs H. apply inject_Z_injective.
  unfold Qdiv in H. apply Qmult_inj_r in H; [exact H|].
  intros Hi. apply Hs.
  rewrite <- (Qinv_involutive s), Hi. reflexivity.
Qed.

(** ** Lemmas on the dashboard table *)

Lemma row_get_none_iff (k : string) (d : list (string * row)) :
  row_get k d = None <-> ~ In k (map fst d).
Proof.
  induction d as [|[k' r] d IH]; simpl; [tauto|].
  destruct (String.eqb_spec k k') as [->|Hne]; split; intros H.
  - discriminate.
  - exfalso; apply H; left; reflexivity.
  - intros [Heq|Hin]; [congruence|]. apply IH in H; contradiction.
  - apply IH. intros Hin; apply H; right; exact Hin.
Qed.

Lemma keys_row_set (k : string) (r : row) (d : list (string * row)) :
  map fst (row_set k r d)
  = match row_get k d with Some _ => map fst d | None => map fst d ++ [k] end.
Proof.
  induction d as [|[k' r'] d IH]; simpl; [reflexivity|].
  destruct (String.eqb_spec k k') as [->|Hne]; simpl; [reflexivity|].
  rewrite IH. destruct (row_get k d); reflexivity.
Qed.

Lemma row_get_set_same (k : string) (r : row) (d : list (string * row)) :
  row_get k (row_set k r d) = Some r.
Proof.
  induction d as [|[k' r'] d IH]; simpl; [rewrite String.eqb_refl; reflexivity|].
  destruct (String.eqb_spec k k') as [->|Hne]; simpl.
  - rewrite String.eqb_refl; reflexivity.
  - apply String.eqb_neq in Hne; rewrite Hne; exact IH.
Qed.

Lemma row_get_set_other (k k' : string) (r : row) (d : list (string * row)) :
  k <> k' -> row_get k (row_set k' r d) = row_get k d.
Proof.
  intros Hne. induction d as [|[k0 r0] d IH]; simpl.
  - apply String.eqb_neq in Hne; rewrite Hne; reflexivity.
  - destruct (String.eqb_spec k' k0) as [->|Hne']; simpl.
    + apply String.eqb_neq in Hne; rewrite Hne; reflexivity.
    + destruct (String.eqb k k0); [reflexivity | exact IH].
Qed.

(** The table lists the keys of [rows] in insertion order, each once, and
    none of them is a reserved key. *)
Definition dash_inv (st : dash_state) : Prop :=
  map fst (rows st) = table st /\ NoDup (table st) /\
  Forall (fun k => reserved_key k = false) (table st).

Lemma dash_inv_empty : dash_inv dash_empty.
Proof. split; [reflexivity | split; constructor]. Qed.

Lemma dash_inv_add (st : dash_state) (k : string) (r : row) :
  dash_inv st -> row_get k (rows st) = None -> reserved_key k = false ->
  dash_inv (mk_dash (row_set k r (rows st)) (table st ++ [k])).
Proof.
  intros (Hk & Hnd & Hres) Hn Hr. unfold dash_inv; simpl.
  rewrite keys_row_set, Hn, Hk. split; [reflexivity|]. split.
  - apply NoDup_app; [exact Hnd | repeat constructor; simpl; tauto |].
    intros x Hx [<-|[]]. apply row_get_none_iff in Hn. rewrite Hk in Hn.
    contradiction.
  - apply Forall_app; split; [exact Hres | constructor; [exact Hr | constructor]].
Qed.

Lemma dash_inv_replace (st : dash_state) (k : string) (r r0 : row) :
  dash_inv st -> row_get k (rows st) = Some r0 ->
  dash_inv (mk_dash (row_set k r (rows st)) (table st)).
Proof.
  intros (Hk & Hnd & Hres) Hs. unfold dash_inv; simpl.
  rewrite keys_row_set, Hs. auto.
Qed.

Lemma progress_key_not_reserved (d : dval) : reserved_key (progress_key d) = false.
Proof. reflexivity. Qed.

Lemma update_item_inv (units : dval) (st : dash_state) (kv : string * dval) :
  dash_inv st -> dash_inv (update_item units st kv).
Proof.
  intros H. destruct kv as [k v]; unfold update_item.
  destruct (reserved_key k) eqn:Er; [exact H|].
  destruct (row_get k (rows st)) as [[t c o|o f]|] eqn:Eg.
  - eapply dash_inv_replace; eassumption.
  - eapply dash_inv_replace; eassumption.
  - apply dash_inv_add; assumption.
Qed.

Lemma update_with_inv (vs : values_dict) (st st' : dash_state) :
  dash_inv st -> update_with vs st = Some st' -> dash_inv st'.
Proof.
  intros H E. unfold update_with in E.
  destruct (_ && _ && _).
  - unfold update_progress in E.
    destruct (val_get "descr" vs) as [d|]; [|discriminate].
    destruct (val_get "total" vs) as [tot|]; [|discriminate].
    destruct (val_get "progress" vs) as [prog|]; [|discriminate].
    set (k := progress_key d) in E.
    destruct (row_get k (rows st)) as [r0|] eqn:Eg.
    + destruct (row_get k (rows st)) as [[a b o|o f]|] eqn:Eg2 in E;
        try discriminate.
      injection E as <-. eapply dash_inv_replace; eassumption.
    + assert (H1 : dash_inv (mk_dash (row_set k (RowProgress (DInt 100) (DInt 0) None)
                                         (rows st)) (table st ++ [k])))
        by (apply dash_inv_add; [exact H | exact Eg | apply progress_key_not_reserved]).
      cbn [rows table] in E. rewrite row_get_set_same in E.
      injection E as <-. exact (dash_inv_replace _ k _ _ H1 (row_get_set_same _ _ _)).
  - injection E as <-.
    generalize (match val_get "units" vs with Some u => u | None => DNone end).
    intros u. revert st H. induction vs as [|kv vs IH]; intros st H; simpl; [exact H|].
    apply IH, update_item_inv, H.
Qed.

Lemma dash_run_inv (vs : list values_dict) :
  forall st st', dash_inv st -> dash_run vs st = Some st' -> dash_inv st'.
Proof.
  induction vs as [|v vs IH]; intros st st' H E; simpl in E.
  - injection E as <-; exact H.
  - destruct (update_with v st) as [s1|] eqn:E1; [|discriminate].
    apply (IH s1); [eapply update_with_inv; eassumption | exact E].
Qed.

Lemma update_item_other (u : dval) (st : dash_state) (k k' : string) (v : dval) :
  k <> k' -> row_get k (rows (update_item u st (k', v))) = row_get k (rows st).
Proof.
  intros Hne. unfold update_item.
  destruct (reserved_key k'); [reflexivity|].
  destruct (row_get k' (rows st)) as [[t c o|o f]|]; simpl;
    apply row_get_set_other; exact Hne.
Qed.

Lemma fold_update_items_other (u : dval) (k : string) (vs : values_dict) :
  forall st, ~ In k (map fst vs) ->
  row_get k (rows (fold_left (update_item u) vs st)) = row_get k (rows st).
Proof.
  induction vs as [|[k2 v2] vs IH]; intros st Hn; [reflexivity|].
  cbn [fold_left]. simpl in Hn.
  rewrite IH by tauto. apply update_item_other. intros ->; tauto.
Qed.

Lemma fold_update_items_keep_plain (u : dval) (vs : values_dict) :
  forall st k v o f,
  NoDup (map fst vs) -> In (k, v) vs -> reserved_key k = false ->
  row_get k (rows st) = Some (RowPlain o f) ->
  row_get k (rows (fold_left (update_item u) vs st)) = Some (RowPlain v f).
Proof.
  induction vs as [|[k' v'] vs IH]; intros st k v o f Hnd Hin Hr Hg; [destruct Hin|].
  simpl in Hnd; cbn [fold_left]. inversion Hnd as [|? ? Hnin Hnd']; subst.
  destruct Hin as [Heq|Hin].
  - injection Heq as -> ->.
    rewrite fold_update_items_other by exact Hnin.
    unfold update_item. rewrite Hr, Hg. apply row_get_set_same.
  - apply (IH _ k v o f Hnd' Hin Hr).
    rewrite update_item_other; [exact Hg|].
    intros ->. apply Hnin. apply (in_map fst) in Hin. exact Hin.
Qed.

Lemma fold_update_items_new (u : dval) (vs : values_dict) :
  forall st k v,
  NoDup (map fst vs) -> In (k, v) vs -> reserved_key k = false ->
  row_get k (rows st) = None ->
  row_get k (rows (fold_left (update_item u) vs st))
  = Some (RowPlain v (if py_truthy u then FmtUnits u else FmtDefault)).
Proof.
  induction vs as [|[k' v'] vs IH]; intros st k v Hnd Hin Hr Hg; [destruct Hin|].
  simpl in Hnd; cbn [fold_left]. inversion Hnd as [|? ? Hnin Hnd']; subst.
  destruct Hin as [Heq|Hin].
  - injection Heq as -> ->.
    rewrite fold_update_items_other by exact Hnin.
    unfold update_item. rewrite Hr, Hg. apply row_get_set_same.
  - apply (IH _ k v Hnd' Hin Hr).
    rewrite update_item_other; [exact Hg|].
    intros ->. apply Hnin. apply (in_map fst) in Hin. exact Hin.
Qed.

(** * Claims *)

(** C1 (amended).  For every sequence of samples filling one window, the
    flush publishes [Σsize / Σdelta] (sizes of the first element of each
    consecutive pair, deltas of the pairs, in seconds) exactly when both
    sums are non-zero, provided no synchronisation hook is set; with the
    [use_cuda] hook, whose measured cost is [c] ns, the elapsed total is
    [c + Σdelta] in both the division and the publish condition. *)
Theorem train_rate_window_rate (s : list sample) :
  train_rate_flush None (pairwise s) = spec_train_rate s /\
  (forall c, train_rate_flush (Some c) (pairwise s) = train_rate_expected c s).
Proof.
  split.
  - rewrite train_rate_flush_pairwise.
    unfold train_rate_expected, spec_train_rate. rewrite Z.add_0_l.
    reflexivity.
  - intros c. apply train_rate_flush_pairwise.
Qed.

(** C1 (counterexample).  Two samples at the same timestamp: the time
    deltas sum to zero and the spec's rate is not published, yet with a
    synchronisation cost of 1000 ns a [train_rate] is given. *)
Lemma train_rate_sync_publishes_zero_delta :
  spec_delta_sum [mk_sample 5 4; mk_sample 5 4] = 0 /\
  spec_train_rate [mk_sample 5 4; mk_sample 5 4] = None /\
  exists q, train_rate_flush (Some 1000) (pairwise [mk_sample 5 4; mk_sample 5 4])
            = Some q.
Proof. split; [reflexivity | split; [reflexivity | eexists; reflexivity]]. Qed.

(** C2 (amended).  For a positive [stop] parameter [n], [ov.stop] is
    called exactly once, with the value of the [(n+1)]-th [train_rate] event
    (the first one [skip(n)] lets through), when there is one, and never a
    second time, whatever events follow. *)
Theorem stop_fires_once_after_n (n : Z) (evs : list Q) :
  0 < n ->
  stop_signals (stop_instrument n evs)
  = match nth_error evs (Z.to_nat n) with Some v => [v] | None => [] end.
Proof.
  intros Hn. unfold stop_instrument.
  destruct (Z.eqb_spec n 0) as [->|_]; [lia|]. simpl.
  rewrite stop_run_fresh by (simpl; auto; lia).
  simpl. rewrite Z.sub_0_r. reflexivity.
Qed.

Lemma stop_fires_once_after_n_witness :
  0 < 3 /\ stop_signals (stop_instrument 3 [1; 2; 3; 4; 5]%Q) = [4%Q].
Proof.
  split; [lia|].
  rewrite (stop_fires_once_after_n 3 [1; 2; 3; 4; 5]%Q) by lia.
  reflexivity.
Defined.

(** C2 (counterexample).  With [stop = 3], the 3rd [train_rate] event is
    observed and no stop signal is issued. *)
Lemma stop_no_signal_at_nth :
  stop_signals (stop_instrument 3 [1; 2; 3]%Q) = [].
Proof. reflexivity. Qed.

(** C3 (amended).  A raised exception of [GPUtil.getGPUs()] on a poll
    escapes [run] and ends the monitor thread: every sample published is
    from a poll before it, and no later poll happens. *)
Theorem monitor_poll_failure_ends_thread {D : Type} (ds : list D) (e : string)
    (r : list (bool * gpu_poll D)) :
  monitor_run (map (fun d => (false, PollOk d)) ds ++ (false, PollRaises e) :: r)
  = (ds, ThreadDied e).
Proof.
  induction ds as [|d ds IH]; simpl; [reflexivity|].
  rewrite IH. reflexivity.
Qed.

(** C3 (counterexample).  Five failing polls followed by a successful one:
    the thread dies on the first failure and no sample is ever published. *)
Lemma monitor_five_failures_then_success :
  monitor_run (repeat (false, PollRaises "timeout"%string) 5
               ++ [(false, PollOk [1; 2])])
  = ([], ThreadDied "timeout"%string).
Proof. reflexivity. Qed.

(** C4 (code bug).  At its default value [""] the [profile] option is not
    [None], so the first resumption of [profile] raises
    [NotImplementedError("Unknown profiler: ")] instead of being inactive. *)
Theorem profile_default_raises :
  profile_start profile_option_default = ProfileRaises "Unknown profiler: "%string /\
  profiler_invoked (profile_start profile_option_default) = false.
Proof. split; reflexivity. Qed.

(** C5.  For a [loss] channel with first value [initial] and last value
    [final], [verify] sends [verify.loss_decreases = final < initial] and
    [verify.loss_below_threshold = final < 1], both strict; on
    [2.0, 1.5, 0.8] both are true, on [1.0, 1.0] [loss_decreases] is false. *)
Theorem verify_loss_predicates :
  (forall (initial : Q) (rest : list Q),
     let final := last (initial :: rest) initial in
     verify_loss_outputs (initial :: rest)
     = [("verify.loss_decreases"%string, py_lt final initial);
        ("verify.loss_below_threshold"%string, py_lt final 1)]) /\
  (forall x y, py_lt x y = true <-> (x < y)%Q) /\
  verify_loss_outputs [2; 3 # 2; 4 # 5]%Q
  = [("verify.loss_decreases"%string, true);
     ("verify.loss_below_threshold"%string, true)] /\
  verify_loss_outputs [1; 1]%Q
  = [("verify.loss_decreases"%string, false);
     ("verify.loss_below_threshold"%string, false)].
Proof.
  split; [|split; [exact py_lt_spec | split; reflexivity]].
  intros initial rest final. reflexivity.
Qed.

(** C6 (code bug).  A [compute_start] span whose exit values carry no
    [batch]: [compute_rate]'s [_timing] returns [None] and, with no
    [filter] stage, [None] reaches [average(scan=5)]; the sibling
    [loading_rate] filters it out and emits nothing for the span. *)
Theorem compute_rate_emits_none_without_batch :
  compute_timing 0 1000000 [] = Ok None /\
  compute_to_average [mk_span 0 1000000 []] = [None] /\
  loading_to_average [mk_span 0 1000000 []] = [].
Proof. split; [reflexivity | split; reflexivity]. Qed.

(** C7 (amended).  [stop()] sets [self.stopped] and returns without
    joining the thread; in every interleaving of the two threads at most
    one sample is published after [stop()] has returned (by a poll that had
    already passed the [while] test). *)
Theorem monitor_at_most_one_late_publish (s : sys_state) :
  sys_reachable s -> (late_publishes s <= 1)%nat.
Proof.
  intros H. destruct (sys_inv_reachable s H) as [Hf Ht].
  destruct (stop_returned s).
  - apply Ht; reflexivity.
  - rewrite (proj2 (Hf eq_refl)); lia.
Qed.

Lemma monitor_at_most_one_late_publish_witness :
  sys_reachable sys_init /\ (late_publishes sys_init <= 1)%nat.
Proof.
  split; [apply rt_refl|].
  apply (monitor_at_most_one_late_publish sys_init). apply rt_refl.
Defined.

(** C7 (counterexample).  The monitor passes the [while] test, the main
    thread's [stop()] returns, then the monitor gives a sample. *)
Lemma monitor_publishes_after_stop :
  exists s, sys_reachable s /\ stop_returned s = true /\ late_publishes s = 1%nat.
Proof.
  exists (mk_sys AtSleep true true 1 1). split; [|split; reflexivity].
  unfold sys_reachable.
  apply rt_trans with (y := mk_sys AtGive false false 0 0);
    [apply rt_step; exists MonitorThread; reflexivity|].
  apply rt_trans with (y := mk_sys AtGive true true 0 0);
    [apply rt_step; exists MainThread; reflexivity|].
  apply rt_step; exists MonitorThread; reflexivity.
Qed.

(** C8 (code bug).  [profile_gpu] builds [GPUMonitor(ov, 100)] and [run]
    calls [time.sleep(100)], in seconds: successive samples are
    [100000 ms] plus the acquisition time apart, not 100 ms. *)
Theorem gpu_monitor_interval_100s (t : Z) (acqs : list Z) :
  gaps (publish_times t profile_gpu_delay acqs)
  = map (fun a => 100000 + a) (tl acqs).
Proof. apply publish_times_gaps. Qed.

(** C9.  For a loader whose [__iter__] is not a generator function and
    whose iterator type has no [next] attribute, the handler of
    [loading_rate] prints the error line, installs no probe (so no pipeline
    is built and nothing is published), and returns without raising. *)
Theorem loading_rate_unrecognized_loader_inert (l : loader) (st : io_state)
    (ty : string) :
  iter_is_generator_function l = false ->
  iter_of_loader l = IterType ty false ->
  loading_rate_on_loader l st
  = Ok (mk_io (stderr_lines st ++ [cannot_instrument_msg ty]) (probes st)).
Proof.
  intros Hg Hi. unfold loading_rate_on_loader. rewrite Hg, Hi. reflexivity.
Qed.

Lemma loading_rate_unrecognized_loader_inert_witness :
  loading_rate_on_loader
    (mk_loader false (IterType "<class 'list_iterator'>"%string false))
    (mk_io [] [])
  = Ok (mk_io [cannot_instrument_msg "<class 'list_iterator'>"%string] []).
Proof.
  apply (loading_rate_unrecognized_loader_inert
           (mk_loader false (IterType "<class 'list_iterator'>"%string false))
           (mk_io [] []) "<class 'list_iterator'>"%string); reflexivity.
Defined.

(** C10.  For a tuple [batch] whose first component has length [m]
    different from the tuple's length, [loading_rate]'s timing gives
    [m / seconds], [compute_rate]'s gives [len(tuple) / seconds], and the
    two rates differ. *)
Theorem tuple_batch_rates_differ (results : given_dict) (x : pyval)
    (rest : list pyval) (t0 t1 m : Z) :
  dict_get "batch" results = Some (PTuple (x :: rest)) ->
  t0 <> t1 ->
  py_len x = Ok m ->
  m <> Z.of_nat (List.length (x :: rest)) ->
  let seconds := (inject_Z (t1 - t0) / inject_Z ns_per_s)%Q in
  loading_timing t0 t1 results = Ok (Some (inject_Z m / seconds))%Q /\
  compute_timing t0 t1 results
  = Ok (Some (inject_Z (Z.of_nat (List.length (x :: rest))) / seconds))%Q /\
  ~ (inject_Z m / seconds == inject_Z (Z.of_nat (List.length (x :: rest))) / seconds)%Q.
Proof.
  intros Hb Ht Hl Hne seconds.
  unfold loading_timing, compute_timing. rewrite Hb. simpl py_index0.
  cbv iota.
  split; [apply rate_of_sized; assumption|].
  split; [apply rate_of_sized; [assumption | reflexivity]|].
  intros Heq. apply Hne. exact (Qdiv_same_inj _ _ _ (seconds_nonzero t0 t1 Ht) Heq).
Qed.

Lemma tuple_batch_rates_differ_witness :
  exists r1 r2,
    loading_timing 0 1000000000 [("batch"%string, PTuple [PSized 32; PSized 32])]
    = Ok (Some r1) /\
    compute_timing 0 1000000000 [("batch"%string, PTuple [PSized 32; PSized 32])]
    = Ok (Some r2) /\ ~ (r1 == r2)%Q.
Proof.
  destruct (tuple_batch_rates_differ [("batch"%string, PTuple [PSized 32; PSized 32])]
              (PSized 32) [PSized 32] 0 1000000000 32)
    as (H1 & H2 & H3);
    [reflexivity | lia | reflexivity | simpl; lia |].
  eexists; eexists; split; [exact H1 | split; [exact H2 | exact H3]].
Defined.

(** * Further properties of the instruments *)

(** ** dash *)

(** Whatever the sequence of given dicts, while [update_with] has not
    raised, the table shows each key of [rows] exactly once, in the order
    the rows were created, and never a key starting with [$] or [#] or equal
    to [units]. *)
Theorem dash_table_rows_consistent (vs : list values_dict) (st : dash_state) :
  dash_run vs dash_empty = Some st ->
  map fst (rows st) = table st /\ NoDup (table st) /\
  Forall (fun k => reserved_key k = false) (table st).
Proof. intros H. exact (dash_run_inv vs dash_empty st dash_inv_empty H). Qed.

Lemma dash_table_rows_consistent_witness :
  exists st,
    dash_run [[("descr"%string, DStr "train"); ("total"%string, DInt 3);
               ("progress"%string, DInt 0)];
              [("train_rate"%string, DObj "12.5"); ("units"%string, DStr "items/s");
               ("$x"%string, DInt 1)]] dash_empty = Some st /\
    map fst (rows st) = table st /\ NoDup (table st) /\
    Forall (fun k => reserved_key k = false) (table st).
Proof.
  eexists.
  match goal with
  | |- dash_run ?vs _ = _ /\ _ =>
      split; [reflexivity | apply (dash_table_rows_consistent vs); reflexivity]
  end.
Defined.



(** A progress dict whose key [\[descr]] already holds a [Plain] row (a
    value given earlier under that very name) makes [update_with] raise:
    [Plain] has no [update] method. *)
Theorem dash_progress_on_plain_raises (vs : values_dict) (st : dash_state)
    (d t p o : dval) (f : plain_fmt) :
  val_get "descr" vs = Some d -> val_get "total" vs = Some t ->
  val_get "progress" vs = Some p ->
  row_get (progress_key d) (rows st) = Some (RowPlain o f) ->
  update_with vs st = None.
Proof.
  intros Hd Ht Hp Hg. unfold update_with, has_key, update_progress.
  rewrite Hd, Ht, Hp. simpl. rewrite Hg, Hg. reflexivity.
Qed.

Lemma dash_progress_on_plain_raises_witness :
  update_with [("descr"%string, DStr "train"); ("total"%string, DInt 3);
               ("progress"%string, DInt 1)]
    (mk_dash [("\[train]"%string, RowPlain (DInt 7) FmtDefault)] ["\[train]"%string])
  = None.
Proof.
  apply (dash_progress_on_plain_raises _ _ (DStr "train") (DInt 3) (DInt 1)
           (DInt 7) FmtDefault); reflexivity.
Defined.

(** For a dict that is not a progress dict, every non-reserved key [k]
    whose row is not a progress bar ends up showing its new value [v]: an
    existing [Plain] keeps the format it was created with, a new row takes
    [{} units] from this dict's truthy [units] (or [{}]). *)
Theorem dash_plain_row_shows_value (vs : values_dict) (st : dash_state)
    (k : string) (v : dval) :
  (has_key "total" vs && has_key "progress" vs && has_key "descr" vs) = false ->
  NoDup (map fst vs) -> In (k, v) vs -> reserved_key k = false ->
  (forall t c o, row_get k (rows st) <> Some (RowProgress t c o)) ->
  let units := match val_get "units" vs with Some u => u | None => DNone end in
  exists st',
    update_with vs st = Some st' /\
    row_get k (rows st')
    = Some (RowPlain v (match row_get k (rows st) with
                        | Some (RowPlain _ f) => f
                        | _ => if py_truthy units then FmtUnits units else FmtDefault
                        end)).
Proof.
  intros Hnp Hnd Hin Hr Hnpb units. unfold update_with. rewrite Hnp.
  eexists; split; [reflexivity|]. fold units.
  destruct (row_get k (rows st)) as [[t c o|o f]|] eqn:Eg.
  - exfalso; exact (Hnpb t c o eq_refl).
  - exact (fold_update_items_keep_plain units vs st k v o f Hnd Hin Hr Eg).
  - exact (fold_update_items_new units vs st k v Hnd Hin Hr Eg).
Qed.

Lemma dash_plain_row_shows_value_witness :
  exists st',
    update_with [("train_rate"%string, DObj "13.0"); ("units"%string, DStr "items/s")]
      (mk_dash [("train_rate"%string, RowPlain (DObj "12.5") FmtDefault)]
               ["train_rate"%string]) = Some st' /\
    row_get "train_rate" (rows st') = Some (RowPlain (DObj "13.0") FmtDefault).
Proof.
  destruct (dash_plain_row_shows_value
              [("train_rate"%string, DObj "13.0"); ("units"%string, DStr "items/s")]
              (mk_dash [("train_rate"%string, RowPlain (DObj "12.5") FmtDefault)]
                       ["train_rate"%string]) "train_rate" (DObj "13.0"))
    as (st' & H1 & H2);
    [reflexivity | repeat constructor; simpl; intuition discriminate
    | left; reflexivity | reflexivity | intros t c o; discriminate |].
  exists st'; split; [exact H1 | exact H2].
Defined.

(** ** train_rate *)

Lemma spec_size_sum_cons2 (x y : sample) (l : list sample) :
  spec_size_sum (x :: y :: l) = batch_size x + spec_size_sum (y :: l).
Proof. reflexivity. Qed.

Lemma spec_delta_sum_cons2 (x y : sample) (l : list sample) :
  spec_delta_sum (x :: y :: l) = (time y - time x) + spec_delta_sum (y :: l).
Proof. reflexivity. Qed.

Lemma spec_sums_shift (delta : Z) (s : list sample) :
  spec_size_sum (map (shift_sample delta) s) = spec_size_sum s /\
  spec_delta_sum (map (shift_sample delta) s) = spec_delta_sum s.
Proof.
  induction s as [|x [|y s'] IH]; [split; reflexivity | split; reflexivity|].
  destruct IH as [IH1 IH2].
  change (map (shift_sample delta) (x :: y :: s'))
    with (shift_sample delta x :: map (shift_sample delta) (y :: s')).
  change (map (shift_sample delta) (y :: s'))
    with (shift_sample delta y :: map (shift_sample delta) s') in IH1, IH2 |- *.
  rewrite spec_size_sum_cons2, spec_delta_sum_cons2, IH1, IH2,
    (spec_size_sum_cons2 x y), (spec_delta_sum_cons2 x y).
  unfold shift_sample; simpl. split; [reflexivity | lia].
Qed.

(** Shifting every timestamp of a window by the same amount (for instance
    a wall-clock adjustment) changes neither whether a [train_rate] is
    published nor its value. *)
Theorem train_rate_shift_invariant (c : option Z) (delta : Z) (s : list sample) :
  train_rate_flush c (pairwise (map (shift_sample delta) s))
  = train_rate_flush c (pairwise s).
Proof.
  rewrite !train_rate_flush_pairwise. unfold train_rate_expected.
  destruct (spec_sums_shift delta s) as [-> ->]. reflexivity.
Qed.

Lemma spec_sums_last (s : list sample) (x x' : sample) :
  time x = time x' ->
  spec_size_sum (s ++ [x]) = spec_size_sum (s ++ [x']) /\
  spec_delta_sum (s ++ [x]) = spec_delta_sum (s ++ [x']).
Proof.
  intros Ht.
  induction s as [|a [|b s''] IH];
    [split; reflexivity | simpl; rewrite Ht; split; reflexivity |].
  destruct IH as [IH1 IH2].
  change ((a :: b :: s'') ++ [x]) with (a :: b :: (s'' ++ [x])).
  change ((a :: b :: s'') ++ [x']) with (a :: b :: (s'' ++ [x'])).
  change ((b :: s'') ++ [x]) with (b :: (s'' ++ [x])) in IH1, IH2.
  change ((b :: s'') ++ [x']) with (b :: (s'' ++ [x'])) in IH1, IH2.
  rewrite !spec_size_sum_cons2, !spec_delta_sum_cons2, IH1, IH2.
  split; reflexivity.
Qed.

(** The size of the last sample of a window never counts: only the first
    element of each consecutive pair contributes its size, so changing the
    last batch's size leaves the flush unchanged. *)
Theorem train_rate_last_size_ignored (c : option Z) (s : list sample) (x : sample)
    (z : Z) :
  train_rate_flush c (pairwise (s ++ [x]))
  = train_rate_flush c (pairwise (s ++ [mk_sample (time x) z])).
Proof.
  rewrite !train_rate_flush_pairwise. unfold train_rate_expected.
  destruct (spec_sums_last s x (mk_sample (time x) z) eq_refl) as [-> ->].
  reflexivity.
Qed.

Lemma rate_antitone (n t0 t1 : Z) :
  0 <= n -> 0 < t0 <= t1 ->
  (inject_Z n / (inject_Z t1 / inject_Z ns_per_s)
   <= inject_Z n / (inject_Z t0 / inject_Z ns_per_s))%Q.
Proof.
  intros Hn [H0 H1].
  destruct t0 as [|p0|p0]; try lia. destruct t1 as [|p1|p1]; try lia.
  unfold Qle, Qdiv, Qmult, Qinv, inject_Z, ns_per_s; simpl. nia.
Qed.

Lemma rate_pos (n t : Z) :
  0 < n -> 0 < t -> (0 < inject_Z n / (inject_Z t / inject_Z ns_per_s))%Q.
Proof.
  intros Hn Ht. destruct t as [|p|p]; try lia.
  unfold Qlt, Qdiv, Qmult, Qinv, inject_Z, ns_per_s; simpl. nia.
Qed.

(** For a window with positive total size and positive total elapsed
    time, a rate is published with or without the synchronisation hook; it
    is positive, and a non-negative synchronisation cost can only lower it. *)
Theorem train_rate_sync_lowers_rate (c : Z) (s : list sample) :
  0 <= c -> 0 < spec_size_sum s -> 0 < spec_delta_sum s ->
  exists r0 r1,
    train_rate_flush None (pairwise s) = Some r0 /\
    train_rate_flush (Some c) (pairwise s) = Some r1 /\
    (0 < r1)%Q /\ (r1 <= r0)%Q.
Proof.
  intros Hc Hn Hd. rewrite !train_rate_flush_pairwise. unfold train_rate_expected.
  destruct (Z.eqb_spec (spec_size_sum s) 0) as [E|_]; [lia|].
  destruct (Z.eqb_spec (0 + spec_delta_sum s) 0) as [E|_]; [lia|].
  destruct (Z.eqb_spec (c + spec_delta_sum s) 0) as [E|_]; [lia|].
  simpl. do 2 eexists. split; [reflexivity|]. split; [reflexivity|].
  split; [apply rate_pos; lia | apply rate_antitone; lia].
Qed.

Lemma train_rate_sync_lowers_rate_witness :
  exists r0 r1,
    train_rate_flush None (pairwise [mk_sample 0 32; mk_sample 500000000 32]) = Some r0 /\
    train_rate_flush (Some 1000) (pairwise [mk_sample 0 32; mk_sample 500000000 32])
    = Some r1 /\ (0 < r1)%Q /\ (r1 <= r0)%Q.
Proof.
  apply (train_rate_sync_lowers_rate 1000 [mk_sample 0 32; mk_sample 500000000 32]);
    reflexivity || (simpl; lia).
Defined.

(** ** stop *)

Lemma stop_progress_app (a b : list stop_effect) :
  stop_progress (a ++ b) = stop_progress a ++ stop_progress b.
Proof.
  induction a as [|[p t|v] a IH]; simpl; rewrite ?IH; reflexivity.
Qed.

Lemma stop_run_progress (n : Z) (evs : list Q) :
  forall st k, st_index st = Z.of_nat k ->
  stop_progress (stop_run n st evs)
  = map (fun i => (Z.of_nat i, n)) (seq k (List.length evs)).
Proof.
  induction evs as [|v r IH]; intros [i sk c] k Hi; simpl in Hi |- *; [reflexivity|].
  subst i. unfold stop_on_event; simpl.
  destruct (sk <? n); [|destruct c]; simpl; rewrite ?stop_progress_app; simpl;
    rewrite (IH _ (S k)) by (simpl; lia); reflexivity.
Qed.

(** With a non-zero [stop] parameter, every [train_rate] event gets exactly
    one progress record, in order, carrying its 0-based ordinal and the
    total [stop], whether or not the stop signal has already been issued. *)
Theorem stop_progress_records (n : Z) (evs : list Q) :
  n <> 0 ->
  stop_progress (stop_instrument n evs)
  = map (fun i => (Z.of_nat i, n)) (seq 0 (List.length evs)).
Proof.
  intros Hn. unfold stop_instrument.
  destruct (Z.eqb_spec n 0) as [E|_]; [contradiction|]. simpl.
  apply stop_run_progress. reflexivity.
Qed.

Lemma stop_progress_records_witness :
  stop_progress (stop_instrument 2 [5; 6; 7]%Q) = [(0, 2); (1, 2); (2, 2)].
Proof. rewrite (stop_progress_records 2 [5; 6; 7]%Q) by lia. reflexivity. Defined.

(** ** GPUMonitor *)

(** When the loop finds [self.stopped] set, it exits: every poll made
    before is published, in order, and no poll is made after. *)
Theorem monitor_stop_flag_ends_loop {D : Type} (ds : list D) (p : gpu_poll D)
    (r : list (bool * gpu_poll D)) :
  monitor_run (map (fun d => (false, PollOk d)) ds ++ (true, p) :: r)
  = (ds, LoopExited).
Proof.
  induction ds as [|d ds IH]; simpl; [reflexivity|].
  rewrite IH. reflexivity.
Qed.

(** In every interleaving, once [stop()] has returned, the monitor thread
    running on its own leaves its loop within three steps (at most one give,
    one sleep and the final test of the flag). *)
Theorem monitor_exits_after_stop (s : sys_state) :
  sys_reachable s -> stop_returned s = true ->
  pc (monitor_alone 3 s) = AtDone.
Proof.
  intros H Hr. destruct (sys_inv_reachable s H) as [_ Ht].
  destruct (Ht Hr) as (Hs & _ & _).
  destruct s as [p sp sr pu lp]; simpl in *; subst sp sr.
  destruct p; reflexivity.
Qed.

Lemma monitor_exits_after_stop_witness :
  pc (monitor_alone 3 (mk_sys AtGive true true 0 0)) = AtDone.
Proof.
  apply monitor_exits_after_stop; [|reflexivity].
  apply rt_trans with (y := mk_sys AtGive false false 0 0);
    [apply rt_step; exists MonitorThread; reflexivity|].
  apply rt_step; exists MainThread; reflexivity.
Defined.

(** ** loading_rate and compute_rate timings *)



(** An empty list as [batch] makes both timings raise [IndexError] on
    [data[0]]; an empty tuple does so in [loading_rate] only, while
    [compute_rate] takes its length [0]. *)
Theorem timing_empty_batch (t0 t1 : Z) (results : given_dict) :
  (dict_get "batch" results = Some (PList []) ->
   loading_timing t0 t1 results = Raise IndexError /\
   compute_timing t0 t1 results = Raise IndexError) /\
  (dict_get "batch" results = Some (PTuple []) -> t0 <> t1 ->
   loading_timing t0 t1 results = Raise IndexError /\
   compute_timing t0 t1 results
   = Ok (Some (inject_Z 0 / (inject_Z (t1 - t0) / inject_Z ns_per_s)))%Q).
Proof.
  unfold loading_timing, compute_timing. split.
  - intros H; rewrite H; split; reflexivity.
  - intros H Ht; rewrite H; split; [reflexivity|].
    apply rate_of_sized; [exact Ht | reflexivity].
Qed.

Lemma timing_empty_batch_witness :
  (loading_timing 0 5 [("batch"%string, PList [])] = Raise IndexError /\
   compute_timing 0 5 [("batch"%string, PList [])] = Raise IndexError) /\
  (loading_timing 0 5 [("batch"%string, PTuple [])] = Raise IndexError /\
   compute_timing 0 5 [("batch"%string, PTuple [])]
   = Ok (Some (inject_Z 0 / (inject_Z (5 - 0) / inject_Z ns_per_s)))%Q).
Proof.
  split.
  - apply (timing_empty_batch 0 5 [("batch"%string, PList [])]); reflexivity.
  - apply (timing_empty_batch 0 5 [("batch"%string, PTuple [])]);
      [reflexivity | lia].
Defined.

(** Unless the [batch] is a tuple, both instruments compute the same
    per-span result (rate, nothing, or exception). *)
Theorem timing_agree_unless_tuple (t0 t1 : Z) (results : given_dict) :
  (forall l, dict_get "batch" results <> Some (PTuple l)) ->
  loading_timing t0 t1 results = compute_timing t0 t1 results.
Proof.
  intros H. unfold loading_timing, compute_timing.
  destruct (dict_get "batch" results) as [[l|l|n|]|] eqn:E; try reflexivity.
  exfalso; exact (H l eq_refl).
Qed.

Lemma timing_agree_unless_tuple_witness :
  loading_timing 0 1000 [("batch"%string, PList [PSized 8])]
  = compute_timing 0 1000 [("batch"%string, PList [PSized 8])].
Proof. apply timing_agree_unless_tuple. intros l; discriminate. Defined.

(** ** profile *)

(** Every profiler name other than [torch] and [deepspeed], the empty
    string included, makes [profile] raise [NotImplementedError] with the
    message [Unknown profiler: <name>], and no profiler is used. *)
Theorem profile_unknown_name_raises (s : string) :
  s <> "torch"%string -> s <> "deepspeed"%string ->
  profile_start (Some s) = ProfileRaises ("Unknown profiler: " ++ s)%string.
Proof.
  intros H1 H2. unfold profile_start.
  apply String.eqb_neq in H1, H2. rewrite H1, H2. reflexivity.
Qed.

Lemma profile_unknown_name_raises_witness :
  profile_start (Some "tensorboard"%string)
  = ProfileRaises "Unknown profiler: tensorboard"%string.
Proof. apply profile_unknown_name_raises; discriminate. Defined.

(** ** loading_rate: loader shapes *)

(** The handler of [loading_rate] either installs exactly one probe and
    prints nothing, or prints the error line for the iterator's type and
    installs no probe; it raises only when [__iter__] is not a generator
    function and [iter(loader)] itself raises, with that exception. *)
Theorem loading_rate_loader_outcomes (l : loader) (st : io_state) :
  match loading_rate_on_loader l st with
  | Ok st' =>
      (exists p, probes st' = probes st ++ [p] /\ stderr_lines st' = stderr_lines st) \/
      (exists ty, iter_of_loader l = IterType ty false /\
                  probes st' = probes st /\
                  stderr_lines st' = stderr_lines st ++ [cannot_instrument_msg ty])
  | Raise e =>
      iter_is_generator_function l = false /\ iter_of_loader l = IterRaises e
  end.
Proof.
  destruct l as [g it]; unfold loading_rate_on_loader; simpl.
  destruct g; [left; eexists; split; reflexivity|].
  destruct it as [e|ty [|]]; simpl.
  - split; reflexivity.
  - left; eexists; split; reflexivity.
  - right; exists ty; repeat split.
Qed.

(** ** verify and train_rate together *)

Lemma verify_has_field_app (f : string) (a b : list given_keys) :
  verify_has_field f (a ++ b) = verify_has_field f a || verify_has_field f b.
Proof.
  unfold verify_has_field.
  induction a as [|x a IH]; simpl; [reflexivity|].
  destruct (existsb (String.eqb f) x); simpl; [reflexivity | exact IH].
Qed.

Lemma verify_has_field_window (cc : Z) (s : list sample) :
  verify_has_field "train_rate"
    (match train_rate_expected cc s with
     | Some _ => [["train_rate"; "units"]%string] | None => [] end) = true
  <-> spec_size_sum s <> 0 /\ cc + spec_delta_sum s <> 0.
Proof.
  unfold train_rate_expected.
  destruct (Z.eqb_spec (spec_size_sum s) 0) as [E1|E1];
  destruct (Z.eqb_spec (cc + spec_delta_sum s) 0) as [E2|E2]; simpl;
    split; intros H; try discriminate; try tauto; reflexivity.
Qed.

(** When the [train_rate] instrument is the only source of [train_rate]
    values, [verify.has_train_rate] is true exactly when some window has a
    non-zero size total (sizes of the first element of each pair) and a
    non-zero elapsed total (synchronisation cost plus time deltas). *)
Theorem verify_has_train_rate_iff (ws : list (option Z * list sample)) :
  verify_has_field "train_rate"
    (train_rate_gives (map (fun '(c, s) => (c, pairwise s)) ws)) = true
  <-> exists c s, In (c, s) ws /\ spec_size_sum s <> 0 /\
        (match c with Some c => c | None => 0 end) + spec_delta_sum s <> 0.
Proof.
  induction ws as [|[c s] ws IH]; simpl.
  - split; [discriminate | intros (c & s & [] & _)].
  - unfold train_rate_gives in *. cbn [flat_map].
    rewrite verify_has_field_app, Bool.orb_true_iff, IH.
    rewrite train_rate_flush_pairwise, verify_has_field_window.
    split.
    + intros [H|(c' & s' & Hin & H)].
      * exists c, s; split; [left; reflexivity | exact H].
      * exists c', s'; split; [right; exact Hin | exact H].
    + intros (c' & s' & [Heq|Hin] & H).
      * injection Heq as <- <-. left; exact H.
      * right; exists c', s'; split; [exact Hin | exact H].
Qed.
